(** * Travel Assistant (app.py): lookups, prompt construction and the submit handler

    A shallow embedding of the orchestration code of [app.py]:
    the two tools [get_weather] and [search_attractions], the prompt built by
    [run_travel_assistant], and the button handler that guards it.  Python
    values are JSON-like values, a [dict] keeps its insertion order, and every
    function that talks to the outside runs in a small state-and-exception
    monad over the process state (module globals, [os.environ], the page
    session and a trace of the requests issued). *)

From Stdlib Require Import ZArith String Ascii List DecimalString Decimal Lia.
From stdpp Require Import base option list strings gmap.

Set Warnings "-register-all".
Open Scope string_scope.

(** ** Python values *)

(** What [json.loads] (and the tools) hand to the program.  A float is kept
    by the text Python prints for it. *)
Inductive json : Type :=
| JNull
| JBool (b : bool)
| JInt (z : Z)
| JFloat (repr : string)
| JStr (s : string)
| JArr (items : list json)
| JObj (fields : list (string * json)).

(** A Python [dict] with string keys, in insertion order. *)
Definition dict : Type := list (string * json).

Fixpoint dict_get (d : dict) (k : string) : option json :=
  match d with
  | [] => None
  | (k', v) :: d' => if String.eqb k' k then Some v else dict_get d' k
  end.

Definition keys (d : dict) : list string := map fst d.

(** ** Exceptions *)

(** The exception classes that can reach the program; all of them derive
    from [Exception]. *)
Inductive exn : Type :=
| RequestException (msg : string)   (* requests.get: transport failure *)
| HTTPError (msg : string)          (* response.raise_for_status() *)
| JSONDecodeError (msg : string)    (* response.json() *)
| KeyError (key : string)           (* d[k] on a dict without k *)
| TypeError (msg : string)          (* v[k] on a value that is no dict *)
| ExternalError (msg : string)      (* raised inside the search or model client *)
| StepCapReached.                   (* the agent runtime gave up *)

(** [str(e)].  A [KeyError] prints the repr of its key; every key the
    program subscripts with is a quote-free literal. *)
Definition str_exn (e : exn) : string :=
  match e with
  | RequestException m | HTTPError m | JSONDecodeError m
  | TypeError m | ExternalError m => m
  | KeyError k => "'" +:+ k +:+ "'"
  | StepCapReached => "Agent stopped due to iteration limit or time limit."
  end.

Inductive outcome (A : Type) : Type :=
| Returned (a : A)
| Raised (e : exn).
Arguments Returned {A} a.
Arguments Raised {A} e.

(** [v[k]] for a string key [k]; the texts are the interpreter's. *)
Definition subscript (v : json) (k : string) : outcome json :=
  match v with
  | JObj d =>
      match dict_get d k with
      | Some x => Returned x
      | None => Raised (KeyError k)
      end
  | JStr _ => Raised (TypeError "string indices must be integers, not 'str'")
  | JArr _ => Raised (TypeError "list indices must be integers or slices, not str")
  | JNull => Raised (TypeError "'NoneType' object is not subscriptable")
  | JBool _ => Raised (TypeError "'bool' object is not subscriptable")
  | JInt _ => Raised (TypeError "'int' object is not subscriptable")
  | JFloat _ => Raised (TypeError "'float' object is not subscriptable")
  end.

(** ** The process state and the outside world *)

(** The three module-level credentials set by the settings tab. *)
Record credentials : Type := {
  GOOGLE_API_KEY : string;
  TAVILY_API_KEY : string;
  WEATHER_API_KEY : string
}.

Inductive tool : Type := GetWeather | SearchAttractions.

(** One executed tool call: the tool, its argument, what it returned. *)
Definition observation : Type := (tool * string * json)%type.

(** What the model answers to one completion request. *)
Inductive decision : Type :=
| ToolRequest (t : tool) (arg : string)
| FinalAnswer (text : string).

Inductive event : Type :=
| HttpGet (url : string)
| SearchCall (query : string)
| ModelCall (input : string) (scratchpad : list observation)
| StError (msg : string)
| StInfo (msg : string).

Record state : Type := {
  globals : credentials;
  environ : gmap string string;
  files : gmap string string;        (* what is on disk: path to content *)
  travel_results : option json;      (* st.session_state.travel_results *)
  trace : list event
}.

(** An HTTP response as [requests] exposes it. *)
Record response : Type := {
  status_code : nat;
  reason : string;
  resp_url : string;
  body : string + json               (* inl: the text of the decode error *)
}.

Inductive http_result : Type :=
| Unreachable (msg : string)
| Responded (r : response).

(** Everything outside [app.py] that its results depend on.  The search
    client reads its key from the environment, the model client is built
    with the Google key. *)
Record world : Type := {
  weather_api : string -> http_result;
  tavily_search : option string -> string -> outcome (list dict);
  gemini : string -> string -> list observation -> outcome decision;
  repr_container : json -> string;   (* text printed for a list or a dict *)
  step_cap : nat                     (* the agent runtime's own step cap *)
}.

(** ** The monad *)

Definition M (A : Type) : Type := state -> outcome A * state.

Definition ret {A} (a : A) : M A := fun s => (Returned a, s).
Definition raise {A} (e : exn) : M A := fun s => (Raised e, s).
Definition bind {A B} (m : M A) (k : A -> M B) : M B :=
  fun s =>
    match m s with
    | (Returned a, s') => k a s'
    | (Raised e, s') => (Raised e, s')
    end.
Definition lift {A} (o : outcome A) : M A := fun s => (o, s).

(** [try: body except Exception as e: handler(e)] *)
Definition try_except {A} (body : M A) (handler : exn -> M A) : M A :=
  fun s =>
    match body s with
    | (Returned a, s') => (Returned a, s')
    | (Raised e, s') => handler e s'
    end.

Notation "'let!' x ':=' c 'in' k" := (bind c (fun x => k))
  (at level 10, x name, c at level 100, k at level 200).
Notation "c ';;;' k" := (bind c (fun _ => k))
  (at level 100, k at level 200, right associativity).

Definition read_global (f : credentials -> string) : M string :=
  fun s => (Returned (f (globals s)), s).

Definition log (e : event) : M unit :=
  fun s => (Returned tt,
            {| globals := globals s; environ := environ s; files := files s;
               travel_results := travel_results s;
               trace := trace s ++ [e] |}).

(** [os.environ[k] = v] *)
Definition set_environ (k v : string) : M unit :=
  fun s => (Returned tt,
            {| globals := globals s; environ := <[k := v]> (environ s);
               files := files s;
               travel_results := travel_results s;
               trace := trace s |}).

Definition set_travel_results (v : json) : M unit :=
  fun s => (Returned tt,
            {| globals := globals s; environ := environ s; files := files s;
               travel_results := Some v;
               trace := trace s |}).

(** ** Formatting *)

Definition str_nat (n : nat) : string := NilZero.string_of_uint (Nat.to_uint n).
Definition str_Z (z : Z) : string := NilZero.string_of_int (Z.to_int z).

(** What an f-string field [{v}] prints. *)
Definition format_value (w : world) (v : json) : string :=
  match v with
  | JNull => "None"
  | JBool true => "True"
  | JBool false => "False"
  | JInt z => str_Z z
  | JFloat r => r
  | JStr s => s
  | JArr _ | JObj _ => repr_container w v
  end.

Definition nl : string := String (ascii_of_nat 10) EmptyString.

(** ** requests *)

(** [requests.get(url)] *)
Definition requests_get (w : world) (url : string) : M response :=
  log (HttpGet url) ;;;
  match weather_api w url with
  | Unreachable msg => raise (RequestException msg)
  | Responded r => ret r
  end.

(** [response.raise_for_status()], with the message [requests] builds. *)
Definition raise_for_status (r : response) : M unit :=
  if ((400 <=? status_code r) && (status_code r <? 500))%nat then
    raise (HTTPError (str_nat (status_code r) +:+ " Client Error: " +:+ reason r
                      +:+ " for url: " +:+ resp_url r))
  else if ((500 <=? status_code r) && (status_code r <? 600))%nat then
    raise (HTTPError (str_nat (status_code r) +:+ " Server Error: " +:+ reason r
                      +:+ " for url: " +:+ resp_url r))
  else ret tt.

(** [response.json()] *)
Definition response_json (r : response) : M json :=
  match body r with
  | inl msg => raise (JSONDecodeError msg)
  | inr v => ret v
  end.

(** ** get_weather *)

Definition weather_url (key location : string) : string :=
  "http://api.weatherapi.com/v1/current.json?key=" +:+ key +:+ "&q=" +:+ location +:+ "&aqi=no".

(** [data[a][b]] *)
Definition sub2 (data : json) (a b : string) : M json :=
  let! x := lift (subscript data a) in lift (subscript x b).

(** The dict literal [weather_info], its entries evaluated top to bottom. *)
Definition weather_info (w : world) (data : json) : M dict :=
  let! name := sub2 data "location" "name" in
  let! country := sub2 data "location" "country" in
  let! temp_c := sub2 data "current" "temp_c" in
  let! temp_f := sub2 data "current" "temp_f" in
  let! condition := sub2 data "current" "condition" in
  let! text := lift (subscript condition "text") in
  let! humidity := sub2 data "current" "humidity" in
  let! wind_kph := sub2 data "current" "wind_kph" in
  let! feelslike_c := sub2 data "current" "feelslike_c" in
  let! feelslike_f := sub2 data "current" "feelslike_f" in
  let! last_updated := sub2 data "current" "last_updated" in
  ret [ ("location", JStr (format_value w name +:+ ", " +:+ format_value w country));
        ("temperature_c", temp_c);
        ("temperature_f", temp_f);
        ("condition", text);
        ("humidity", humidity);
        ("wind_kph", wind_kph);
        ("feels_like_c", feelslike_c);
        ("feels_like_f", feelslike_f);
        ("last_updated", last_updated) ].

Definition weather_error_prefix : string := "Failed to get weather information: ".

Definition get_weather (w : world) (location : string) : M dict :=
  try_except
    (let! key := read_global WEATHER_API_KEY in
     let url := weather_url key location in
     let! response := requests_get w url in
     raise_for_status response ;;;
     let! data := response_json response in
     weather_info w data)
    (fun e => ret [("error", JStr (weather_error_prefix +:+ str_exn e))]).

(** ** search_attractions *)

Definition search_query (location : string) : string :=
  "Top tourist attractions and places to visit in " +:+ location.

(** [TavilySearchResults(k=5).invoke(query)]: the client picks its key up
    from the environment and either returns the ranked results or raises. *)
Definition search_invoke (w : world) (query : string) : M (list dict) :=
  log (SearchCall query) ;;;
  fun s => (tavily_search w (environ s !! "TAVILY_API_KEY") query, s).

(** [result.get(k, default)] *)
Definition get_default (result : dict) (k : string) (default : json) : json :=
  match dict_get result k with
  | Some v => v
  | None => default
  end.

(** [enumerate(results, start)] *)
Fixpoint enumerate {A} (results : list A) (start : nat) : list (nat * A) :=
  match results with
  | [] => []
  | r :: rest => (start, r) :: enumerate rest (S start)
  end.

Definition attractions_header : string := "Top Attractions:" +:+ nl +:+ nl.

(** One pass of the loop body: the two [+=] statements. *)
Definition append_result (w : world) (formatted_results : string)
    (ir : nat * dict) : string :=
  let formatted_results :=
    formatted_results +:+
      (str_nat (fst ir) +:+ ". "
       +:+ format_value w (get_default (snd ir) "title" (JStr "No title")) +:+ nl) in
  formatted_results +:+
    ("   " +:+ format_value w (get_default (snd ir) "content" (JStr "No description"))
     +:+ nl +:+ nl).

Definition format_results (w : world) (results : list dict) : string :=
  fold_left (append_result w) (enumerate results 1) attractions_header.

Definition search_attractions (w : world) (location : string) : M string :=
  let! key := read_global TAVILY_API_KEY in
  set_environ "TAVILY_API_KEY" key ;;;
  let! results := search_invoke w (search_query location) in
  ret (format_results w results).

(** ** run_travel_assistant *)

Definition agent_executor : Type := dict -> M dict.

(** [", ".join(interests) if interests else "general sightseeing"] *)
Definition interests_str (interests : list string) : string :=
  match interests with
  | [] => "general sightseeing"
  | _ :: _ => String.concat ", " interests
  end.

Definition task_input (destination : string) (interests : list string) : string :=
  "I'm planning to visit " +:+ destination +:+ ". I'm interested in "
  +:+ interests_str interests
  +:+ ". What's the weather like and what are some attractions I should see?".

Definition run_travel_assistant (destination : string) (interests : list string)
    (executor : agent_executor) : M json :=
  let! response := executor [("input", JStr (task_input destination interests))] in
  lift (subscript (JObj response) "output").

(** ** The agent executor *)

(** The two tools handed to the agent: [tools = [get_weather, search_attractions]].
    The weather tool hands back its dict, the search tool its text. *)
Definition run_tool (w : world) (t : tool) (arg : string) : M json :=
  match t with
  | GetWeather => let! info := get_weather w arg in ret (JObj info)
  | SearchAttractions => let! text := search_attractions w arg in ret (JStr text)
  end.

(** Modelled from the spec: the tool-calling loop of [AgentExecutor.invoke]
    (the orchestration library is not part of [app.py]).  Section 4.3: the
    task description goes to the model; each tool the model requests is
    executed synchronously and its result appended to the conversation as an
    observation; the loop ends when the model emits a final answer, which is
    returned verbatim; an exception of the model call or of a tool surfaces
    to the caller; the runtime's step cap bounds the loop. *)
Fixpoint agent_loop (w : world) (google_key : string) (steps : nat)
    (input : string) (scratchpad : list observation) : M string :=
  match steps with
  | 0 => raise StepCapReached
  | S steps' =>
      log (ModelCall input scratchpad) ;;;
      let! d := lift (gemini w google_key input scratchpad) in
      match d with
      | FinalAnswer text => ret text
      | ToolRequest t arg =>
          let! result := run_tool w t arg in
          agent_loop w google_key steps' input (scratchpad ++ [(t, arg, result)])
      end
  end.

(** Modelled from the spec: [AgentExecutor.invoke] itself, which is not part
    of [app.py].  Section 6: the human message is the [{input}] of the
    request; section 4.3 (5): the model's final text is returned verbatim,
    here under ["output"], where [run_travel_assistant] looks for it. *)
Definition agent_executor_invoke (w : world) (google_key : string) : agent_executor :=
  fun inputs =>
    let! input := lift (subscript (JObj inputs) "input") in
    let! text := agent_loop w google_key (step_cap w) (format_value w input) [] in
    ret [("input", input); ("output", JStr text)].

(** [create_travel_assistant()]: the model client is built with the Google
    key of the moment; the tools read their keys when they run. *)
Definition create_travel_assistant (w : world) : M agent_executor :=
  let! google_key := read_global GOOGLE_API_KEY in
  ret (agent_executor_invoke w google_key).

(** [compose(destination, interests)]: the two calls the handler makes for
    one request, [create_travel_assistant()] and then
    [run_travel_assistant(destination, interests, agent_executor)]. *)
Definition compose (w : world) (destination : string) (interests : list string)
    : M json :=
  let! executor := create_travel_assistant w in
  run_travel_assistant destination interests executor.

(** ** The button handler *)

(** Truth value of a string. *)
Definition truthy (s : string) : bool := negb (String.eqb s "").

(** The main flow below [if submit_button and destination:].  The progress
    bar, the status text and the sleeps do not touch the state modelled
    here.  The call [st.experimental_rerun()] that ends the try block is
    not modelled: the handler is followed up to the statement before it. *)
Definition handle_submit (w : world) (submit_button : bool) (destination : string)
    (interests : list string) : M unit :=
  if submit_button && truthy destination then
    let! google := read_global GOOGLE_API_KEY in
    let! tavily := read_global TAVILY_API_KEY in
    let! weather := read_global WEATHER_API_KEY in
    if negb (truthy google && truthy tavily && truthy weather) then
      log (StError "⚠️ Please provide all required API keys in the Settings tab.")
    else
      try_except
        (let! result := compose w destination interests in
         set_travel_results result)
        (fun e =>
           log (StError ("An error occurred: " +:+ str_exn e)) ;;;
           log (StInfo "Please check your API keys and try again."))
  else ret tt.

(** ** What the weather provider is expected to send *)

(** Follow a path of keys through nested objects. *)
Fixpoint path_get (v : json) (path : list string) : option json :=
  match path with
  | [] => Some v
  | k :: path' =>
      match v with
      | JObj d =>
          match dict_get d k with
          | Some x => path_get x path'
          | None => None
          end
      | _ => None
      end
  end.

(** The fields the weather endpoint is expected to deliver (section 6 of
    the specification), in the order the program reads them. *)
Definition expected_fields : list (list string) :=
  [ ["location"; "name"]; ["location"; "country"];
    ["current"; "temp_c"]; ["current"; "temp_f"];
    ["current"; "condition"; "text"];
    ["current"; "humidity"]; ["current"; "wind_kph"];
    ["current"; "feelslike_c"]; ["current"; "feelslike_f"];
    ["current"; "last_updated"] ].

Definition has_field (data : json) (path : list string) : bool :=
  match path_get data path with
  | Some _ => true
  | None => false
  end.

Definition has_expected_fields (data : json) : bool :=
  forallb (has_field data) expected_fields.

Definition is_error_status (r : response) : bool :=
  ((400 <=? status_code r) && (status_code r <? 600))%nat.

(** The provider behaviours that are failures: transport failure, an HTTP
    error status, a body that is no JSON, or a JSON body that lacks one of
    the expected fields. *)
Definition provider_fails (h : http_result) : bool :=
  match h with
  | Unreachable _ => true
  | Responded r =>
      is_error_status r ||
      match body r with
      | inl _ => true
      | inr data => negb (has_expected_fields data)
      end
  end.

(** The two shapes of a weather result. *)
Definition report_keys : list string :=
  [ "location"; "temperature_c"; "temperature_f"; "condition"; "humidity";
    "wind_kph"; "feels_like_c"; "feels_like_f"; "last_updated" ].

Definition is_weather_report (d : dict) : bool :=
  bool_decide (keys d = report_keys).

Definition is_error_record (d : dict) : bool :=
  match d with
  | [(k, JStr m)] => String.eqb k "error" && String.prefix weather_error_prefix m
  | _ => false
  end.

(** The state after one more logged event, and the record [get_weather]
    returns from its handler. *)
Definition logged (e : event) (s : state) : state :=
  {| globals := globals s; environ := environ s; files := files s;
     travel_results := travel_results s; trace := trace s ++ [e] |}.

Definition error_record (e : exn) : dict :=
  [("error", JStr (weather_error_prefix +:+ str_exn e))].

(** ** The attraction text, entry by entry *)

(** The text one result contributes; [i] is its rank, counted from 1. *)
Definition entry_text (w : world) (i : nat) (result : dict) : string :=
  str_nat i +:+ ". "
  +:+ format_value w (get_default result "title" (JStr "No title")) +:+ nl
  +:+ "   "
  +:+ format_value w (get_default result "content" (JStr "No description"))
  +:+ nl +:+ nl.

(** An entry as the specification describes it: rank, title, snippet. *)
Definition render_entry (i : nat) (title snippet : string) : string :=
  str_nat i +:+ ". " +:+ title +:+ nl +:+ "   " +:+ snippet +:+ nl +:+ nl.

Definition entries_from (w : world) (results : list dict) (start : nat) : list string :=
  map (fun ir => entry_text w (fst ir) (snd ir)) (enumerate results start).

Definition entries (w : world) (results : list dict) : list string :=
  entries_from w results 1.

Definition concat_all (parts : list string) : string :=
  fold_right String.append "" parts.

(** ** The interests as the specification words them *)

(** The interests in their given order, separated by a comma and a blank. *)
Fixpoint comma_joined (interests : list string) : string :=
  match interests with
  | [] => ""
  | [x] => x
  | x :: rest => x +:+ ", " +:+ comma_joined rest
  end.

(** ** What a computation may do to the process state *)

(** [s'] differs from [s] at most in the page session, the trace and the
    environment variable that holds the search key. *)
Definition frame (s s' : state) : Prop :=
  globals s' = globals s /\
  files s' = files s /\
  (environ s' = environ s \/
   environ s' = <["TAVILY_API_KEY" := TAVILY_API_KEY (globals s)]> (environ s)).

(** A computation that stays within [frame] and whose outcome is fixed by
    the credentials alone. *)
Definition well_behaved {A} (m : M A) : Prop :=
  (forall s, frame s (snd (m s))) /\
  (forall s1 s2, globals s1 = globals s2 -> fst (m s1) = fst (m s2)).

(** ** Assumptions on a mocked model and search provider *)




(** ** Fixtures *)

Definition paris_body : json :=
  JObj [("location", JObj [("name", JStr "Paris"); ("country", JStr "France")]);
        ("current",
         JObj [("temp_c", JInt 18); ("temp_f", JFloat "64.4");
               ("condition", JObj [("text", JStr "Sunny")]);
               ("humidity", JInt 40); ("wind_kph", JFloat "9.0");
               ("feelslike_c", JInt 18); ("feelslike_f", JFloat "64.4");
               ("last_updated", JStr "2024-05-01 12:00")])].

Definition weather_up (url : string) : http_result :=
  Responded {| status_code := 200; reason := "OK"; resp_url := url;
               body := inr paris_body |}.

Definition weather_down (url : string) : http_result :=
  Unreachable "Connection refused".

Definition louvre : dict :=
  [("title", JStr "Louvre"); ("content", JStr "The largest museum")].
Definition untitled : dict := [("content", JStr "A walk along the Seine")].
Definition bare : dict := [].

Definition search_up (key : option string) (query : string) : outcome (list dict) :=
  Returned [louvre; untitled; bare].

Definition search_down (key : option string) (query : string) : outcome (list dict) :=
  Raised (ExternalError "401 Client Error: Unauthorized").

(** A model that asks for the weather of Paris once and then answers with
    what it observed. *)
Definition echo_model (key input : string) (scratchpad : list observation)
    : outcome decision :=
  match scratchpad with
  | [] => Returned (ToolRequest GetWeather "Paris")
  | (_, _, JObj info) :: _ =>
      match dict_get info "error" with
      | Some (JStr m) => Returned (FinalAnswer ("Weather unavailable. " +:+ m))
      | _ => Returned (FinalAnswer "Weather found.")
      end
  | _ => Returned (FinalAnswer "Done.")
  end.

(** A model that asks for attractions first. *)
Definition tourist_model (key input : string) (scratchpad : list observation)
    : outcome decision :=
  match scratchpad with
  | [] => Returned (ToolRequest SearchAttractions "Paris")
  | _ => Returned (FinalAnswer "Done.")
  end.

Definition world_up : world :=
  {| weather_api := weather_up; tavily_search := search_up; gemini := echo_model;
     repr_container := fun _ => "[...]"; step_cap := 15 |}.

Definition world_weather_down : world :=
  {| weather_api := weather_down; tavily_search := search_up; gemini := echo_model;
     repr_container := fun _ => "[...]"; step_cap := 15 |}.

Definition world_search_down : world :=
  {| weather_api := weather_up; tavily_search := search_down; gemini := tourist_model;
     repr_container := fun _ => "[...]"; step_cap := 15 |}.

Definition world_tourist : world :=
  {| weather_api := weather_up; tavily_search := search_up; gemini := tourist_model;
     repr_container := fun _ => "[...]"; step_cap := 15 |}.

(** A stand-in for the agent executor, as a test would pass one: it records
    the request it is given and answers with a fixed text. *)
Definition recording_executor : agent_executor :=
  fun inputs =>
    let! input := lift (subscript (JObj inputs) "input") in
    log (ModelCall (match input with JStr text => text | _ => "" end) []) ;;;
    ret [("input", input); ("output", JStr "A fixed answer.")].

Definition fresh_state : state :=
  {| globals := {| GOOGLE_API_KEY := "g-key"; TAVILY_API_KEY := "t-key";
                   WEATHER_API_KEY := "w-key" |};
     environ := ∅; files := ∅; travel_results := None; trace := [] |}.

(** ** The destination widgets *)

(** Lines 67 to 79: the value of the select box, or, when nothing is
    selected, the text typed into the free field (if any). *)
Definition choose_destination (selected custom_destination : string) : string :=
  if truthy selected then selected
  else if truthy custom_destination then custom_destination
  else selected.

(** [all([GOOGLE_API_KEY, TAVILY_API_KEY, WEATHER_API_KEY])] *)
Definition keys_provided (c : credentials) : bool :=
  truthy (GOOGLE_API_KEY c) && truthy (TAVILY_API_KEY c) && truthy (WEATHER_API_KEY c).

(** [st.session_state.travel_results = result] on a state. *)
Definition stored (result : json) (s : state) : state :=
  {| globals := globals s; environ := environ s; files := files s;
     travel_results := Some result; trace := trace s |}.

(** ** More fixtures *)

(** A complete body under an error status. *)
Definition weather_404 (url : string) : http_result :=
  Responded {| status_code := 404; reason := "Not Found"; resp_url := url;
               body := inr paris_body |}.

(** A body without its ["location"] object. *)
Definition weather_no_location (url : string) : http_result :=
  Responded {| status_code := 200; reason := "OK"; resp_url := url;
               body := inr (JObj [("current", JObj [("temp_c", JInt 18)])]) |}.

Definition world_404 : world :=
  {| weather_api := weather_404; tavily_search := search_up; gemini := echo_model;
     repr_container := fun _ => "[...]"; step_cap := 15 |}.

Definition world_no_location : world :=
  {| weather_api := weather_no_location; tavily_search := search_up;
     gemini := echo_model; repr_container := fun _ => "[...]"; step_cap := 15 |}.

(** No weather key entered yet. *)
Definition keyless_state : state :=
  {| globals := {| GOOGLE_API_KEY := "g-key"; TAVILY_API_KEY := "t-key";
                   WEATHER_API_KEY := "" |};
     environ := ∅; files := ∅; travel_results := None; trace := [] |}.




(** * Properties *)

(** ** The monad *)

Lemma bind_returned {A B} (m : M A) (k : A -> M B) s a s' :
  m s = (Returned a, s') -> bind m k s = k a s'.
Proof. intros H. unfold bind. now rewrite H. Qed.

Lemma bind_raised {A B} (m : M A) (k : A -> M B) s e s' :
  m s = (Raised e, s') -> bind m k s = (Raised e, s').
Proof. intros H. unfold bind. now rewrite H. Qed.

(** ** Reading the provider's answer *)

Lemma path_get_app (v : json) (p q : list string) :
  path_get v (p ++ q)%list =
    match path_get v p with
    | Some x => path_get x q
    | None => None
    end.
Proof.
  revert v. induction p as [|k p IH]; intros v; simpl; [reflexivity|].
  destruct v; try reflexivity.
  destruct (dict_get fields k); [apply IH | reflexivity].
Qed.

Lemma subscript_cases (v : json) (k : string) :
  (exists x, path_get v [k] = Some x /\ subscript v k = Returned x) \/
  (path_get v [k] = None /\ exists e, subscript v k = Raised e).
Proof.
  destruct v; simpl; try (right; split; [reflexivity | eexists; reflexivity]).
  destruct (dict_get fields k) as [x|].
  - left. exists x. split; reflexivity.
  - right. split; [reflexivity | eexists; reflexivity].
Qed.

Lemma sub2_cases (data : json) (a b : string) (s : state) :
  (exists x, path_get data [a; b] = Some x /\ sub2 data a b s = (Returned x, s)) \/
  (path_get data [a; b] = None /\ exists e, sub2 data a b s = (Raised e, s)).
Proof.
  change [a; b] with ([a] ++ [b])%list. rewrite path_get_app.
  unfold sub2, bind, lift.
  destruct (subscript_cases data a) as [(x & Hp & Hs) | (Hp & e & Hs)];
    rewrite Hp, Hs.
  - destruct (subscript_cases x b) as [(y & Hq & Ht) | (Hq & e & Ht)];
      rewrite Hq, Ht.
    + left. exists y. split; reflexivity.
    + right. split; [reflexivity | exists e; reflexivity].
  - right. split; [reflexivity | exists e; reflexivity].
Qed.

Lemma path_get_condition_text (data : json) :
  path_get data ["current"; "condition"; "text"] =
    match path_get data ["current"; "condition"] with
    | Some c => path_get c ["text"]
    | None => None
    end.
Proof.
  change ["current"; "condition"; "text"]
    with (["current"; "condition"] ++ ["text"])%list.
  apply path_get_app.
Qed.

Ltac missing_field :=
  unfold has_expected_fields, expected_fields, forallb, has_field;
  repeat match goal with H : path_get _ _ = _ |- _ => rewrite H; clear H end;
  reflexivity.

Ltac read_field cases :=
  let x := fresh "x" in
  let e := fresh "e" in
  let Hp := fresh "Hp" in
  let Hs := fresh "Hs" in
  destruct cases as [(x & Hp & Hs) | (Hp & e & Hs)];
  unfold bind at 1; rewrite Hs; clear Hs; cbv beta iota;
  [ | split; [reflexivity | missing_field] ].

(** The dict literal is built exactly when every expected field is there;
    otherwise reading it raises, and the state is untouched either way. *)
Lemma weather_info_cases (w : world) (data : json) (s : state) :
  match weather_info w data s with
  | (Returned d, s') =>
      s' = s /\ has_expected_fields data = true /\ keys d = report_keys /\
      exists name country,
        path_get data ["location"; "name"] = Some name /\
        path_get data ["location"; "country"] = Some country /\
        dict_get d "location"
          = Some (JStr (format_value w name +:+ ", " +:+ format_value w country))
  | (Raised e, s') => s' = s /\ has_expected_fields data = false
  end.
Proof.
  pose proof (path_get_condition_text data) as Hct.
  unfold weather_info.
  read_field (sub2_cases data "location" "name" s).
  read_field (sub2_cases data "location" "country" s).
  read_field (sub2_cases data "current" "temp_c" s).
  read_field (sub2_cases data "current" "temp_f" s).
  destruct (sub2_cases data "current" "condition" s)
    as [(c & Hpc & Hsc) | (Hpc & e & Hsc)];
    unfold bind at 1; rewrite Hsc; cbv beta iota; rewrite Hpc in Hct;
    [ | split; [reflexivity | missing_field] ].
  unfold bind at 1, lift at 1.
  destruct (subscript_cases c "text") as [(t & Hpt & Hst) | (Hpt & e & Hst)];
    rewrite Hst; cbv beta iota; rewrite Hpt in Hct;
    [ | split; [reflexivity | missing_field] ].
  read_field (sub2_cases data "current" "humidity" s).
  read_field (sub2_cases data "current" "wind_kph" s).
  read_field (sub2_cases data "current" "feelslike_c" s).
  read_field (sub2_cases data "current" "feelslike_f" s).
  read_field (sub2_cases data "current" "last_updated" s).
  unfold ret. split; [reflexivity|]. split; [|split; [reflexivity|]].
  - clear Hpc. missing_field.
  - exists x, x0. repeat split; assumption || reflexivity.
Qed.

(** ** get_weather *)

Lemma raise_for_status_cases (r : response) (s : state) :
  if is_error_status r
  then exists msg, raise_for_status r s = (Raised (HTTPError msg), s)
  else raise_for_status r s = (Returned tt, s).
Proof.
  unfold is_error_status, raise_for_status.
  destruct (Nat.leb_spec 400 (status_code r)), (Nat.ltb_spec (status_code r) 500),
    (Nat.leb_spec 500 (status_code r)), (Nat.ltb_spec (status_code r) 600);
    simpl; try lia; try reflexivity; eexists; reflexivity.
Qed.

(** One request goes out, and whatever comes back is turned into a value. *)
Lemma get_weather_eq (w : world) (location : string) (s : state) :
  get_weather w location s =
    let url := weather_url (WEATHER_API_KEY (globals s)) location in
    let s1 := logged (HttpGet url) s in
    match weather_api w url with
    | Unreachable msg => (Returned (error_record (RequestException msg)), s1)
    | Responded r =>
        match raise_for_status r s1 with
        | (Raised e, s2) => (Returned (error_record e), s2)
        | (Returned _, s2) =>
            match body r with
            | inl msg => (Returned (error_record (JSONDecodeError msg)), s2)
            | inr data =>
                match weather_info w data s2 with
                | (Returned d, s3) => (Returned d, s3)
                | (Raised e, s3) => (Returned (error_record e), s3)
                end
            end
        end
    end.
Proof.
  unfold get_weather, try_except, requests_get, response_json, read_global, log, bind.
  cbv beta iota zeta.
  fold (logged (HttpGet (weather_url (WEATHER_API_KEY (globals s)) location)) s).
  destruct (weather_api w _) as [msg|r]; [reflexivity|].
  unfold ret at 1.
  destruct (raise_for_status r _) as [[[]|e] s2]; [|reflexivity].
  destruct (body r) as [msg|data]; reflexivity.
Qed.

Lemma get_weather_cases (w : world) (location : string) (s : state) :
  let url := weather_url (WEATHER_API_KEY (globals s)) location in
  let s1 := logged (HttpGet url) s in
  (provider_fails (weather_api w url) = true /\
   exists e, get_weather w location s = (Returned (error_record e), s1)) \/
  (provider_fails (weather_api w url) = false /\
   exists r data d name country,
     weather_api w url = Responded r /\ body r = inr data /\
     get_weather w location s = (Returned d, s1) /\
     keys d = report_keys /\
     path_get data ["location"; "name"] = Some name /\
     path_get data ["location"; "country"] = Some country /\
     dict_get d "location"
       = Some (JStr (format_value w name +:+ ", " +:+ format_value w country))).
Proof.
  intros url s1. rewrite get_weather_eq. cbv zeta. fold url. fold s1.
  destruct (weather_api w url) as [msg|r] eqn:Hapi; simpl provider_fails.
  { left. split; [reflexivity | eexists; reflexivity]. }
  pose proof (raise_for_status_cases r s1) as Hst.
  destruct (is_error_status r); simpl orb.
  { destruct Hst as [msg ->]. left. split; [reflexivity | eexists; reflexivity]. }
  rewrite Hst.
  destruct (body r) as [msg|data] eqn:Hbody.
  { left. split; [reflexivity | eexists; reflexivity]. }
  pose proof (weather_info_cases w data s1) as Hw.
  destruct (weather_info w data s1) as [[d|e] s2].
  - destruct Hw as (-> & -> & Hk & name & country & Hn & Hc & Hl).
    right. split; [reflexivity|].
    exists r, data, d, name, country. repeat split; assumption.
  - destruct Hw as (-> & ->). left. split; [reflexivity | eexists; reflexivity].
Qed.

Lemma prefix_app (p m : string) : String.prefix p (p +:+ m) = true.
Proof.
  induction p as [|a p IH]; simpl.
  - destruct m; reflexivity.
  - destruct (ascii_dec a a); [exact IH | contradiction].
Qed.

Lemma error_record_shape (e : exn) :
  is_error_record (error_record e) = true /\
  is_weather_report (error_record e) = false.
Proof.
  split.
  - unfold error_record, is_error_record. simpl String.eqb. apply prefix_app.
  - apply bool_decide_eq_false. unfold error_record, keys, report_keys. simpl.
    discriminate.
Qed.

Lemma report_shape (d : dict) :
  keys d = report_keys ->
  is_weather_report d = true /\ is_error_record d = false.
Proof.
  intros H. split.
  - now apply bool_decide_eq_true.
  - destruct d as [|[k v] [|kv d]]; try discriminate H. destruct v; reflexivity.
Qed.

(** ** search_attractions: the formatted text *)

Lemma append_assoc (a b c : string) : (a +:+ b) +:+ c = a +:+ (b +:+ c).
Proof.
  induction a as [|x a IH]; [reflexivity|].
  change (String x (a +:+ b) +:+ c = String x (a +:+ (b +:+ c))).
  change (String x ((a +:+ b) +:+ c) = String x (a +:+ (b +:+ c))).
  now rewrite IH.
Qed.

Lemma append_nil_r (a : string) : a +:+ "" = a.
Proof.
  induction a as [|x a IH]; [reflexivity|].
  change (String x (a +:+ "") = String x a). now rewrite IH.
Qed.

Lemma append_result_entry (w : world) (acc : string) (ir : nat * dict) :
  append_result w acc ir = acc +:+ entry_text w (fst ir) (snd ir).
Proof.
  unfold append_result, entry_text. now rewrite !append_assoc.
Qed.

Lemma fold_append_result (w : world) (results : list dict) (start : nat) (acc : string) :
  fold_left (append_result w) (enumerate results start) acc
  = acc +:+ concat_all (entries_from w results start).
Proof.
  revert start acc. induction results as [|r rest IH]; intros start acc.
  - simpl. now rewrite append_nil_r.
  - cbn [enumerate fold_left]. rewrite IH, append_result_entry.
    unfold entries_from. cbn [enumerate map concat_all fold_right fst snd].
    now rewrite append_assoc.
Qed.

Lemma format_results_entries (w : world) (results : list dict) :
  format_results w results = attractions_header +:+ concat_all (entries w results).
Proof. apply fold_append_result. Qed.

Lemma length_enumerate {A} (l : list A) (start : nat) :
  length (enumerate l start) = length l.
Proof. revert start. induction l; intros; simpl; [reflexivity | now rewrite IHl]. Qed.

Lemma enumerate_lookup {A} (l : list A) (start i : nat) (x : A) :
  l !! i = Some x -> enumerate l start !! i = Some (start + i, x).
Proof.
  revert start i. induction l as [|a l IH]; intros start i H; [discriminate|].
  destruct i as [|i]; simpl in *.
  - injection H as ->. now rewrite Nat.add_0_r.
  - rewrite (IH (S start) i H). f_equal. f_equal. lia.
Qed.



(** ** Claims about [get_weather] *)

(** C1.  Whatever goes wrong on the provider's side (the transport fails, the
    status is an HTTP error, the body is no JSON or lacks an expected field),
    [get_weather] returns normally, and what it returns is the record
    [{"error": "Failed to get weather information: " + str(e)}] for the
    exception [e] that was caught. *)
Theorem get_weather_failure_is_a_value (w : world) (location : string) (s : state) :
  provider_fails
    (weather_api w (weather_url (WEATHER_API_KEY (globals s)) location)) = true ->
  exists e,
    fst (get_weather w location s)
      = Returned [("error", JStr ("Failed to get weather information: " +:+ str_exn e))].
Proof.
  intros Hfail.
  destruct (get_weather_cases w location s) as [(_ & e & ->) | (Hok & _)].
  - exists e. reflexivity.
  - rewrite Hok in Hfail. discriminate.
Qed.

Lemma get_weather_failure_is_a_value_witness :
  provider_fails
    (weather_api world_weather_down
       (weather_url (WEATHER_API_KEY (globals fresh_state)) "Atlantis")) = true /\
  exists e,
    fst (get_weather world_weather_down "Atlantis" fresh_state)
      = Returned [("error", JStr ("Failed to get weather information: " +:+ str_exn e))].
Proof.
  split; [reflexivity|].
  apply (get_weather_failure_is_a_value world_weather_down "Atlantis" fresh_state).
  reflexivity.
Defined.

(** C10.  [get_weather] always returns a dict, and the dict has one of two
    shapes that exclude each other: the nine keys of the weather record, in
    order, with ["location"] holding the provider's name and country joined
    by [", "]; or the single key ["error"] whose text starts with
    ["Failed to get weather information: "]. *)
Theorem get_weather_two_shapes (w : world) (location : string) (s : state) :
  exists d,
    fst (get_weather w location s) = Returned d /\
    ((is_weather_report d = true /\ is_error_record d = false /\
      keys d = [ "location"; "temperature_c"; "temperature_f"; "condition";
                 "humidity"; "wind_kph"; "feels_like_c"; "feels_like_f";
                 "last_updated" ] /\
      exists r data name country,
        weather_api w (weather_url (WEATHER_API_KEY (globals s)) location)
          = Responded r /\
        body r = inr data /\
        path_get data ["location"; "name"] = Some name /\
        path_get data ["location"; "country"] = Some country /\
        dict_get d "location"
          = Some (JStr (format_value w name +:+ ", " +:+ format_value w country)))
     \/
     (is_error_record d = true /\ is_weather_report d = false /\
      exists m, d = [("error", JStr ("Failed to get weather information: " +:+ m))])).
Proof.
  destruct (get_weather_cases w location s)
    as [(_ & e & ->) | (_ & r & data & d & name & country & Hr & Hb & -> & Hk & Hn & Hc & Hl)].
  - exists (error_record e). split; [reflexivity|]. right.
    destruct (error_record_shape e) as [He Hw].
    repeat split; try assumption. exists (str_exn e). reflexivity.
  - exists d. split; [reflexivity|]. left.
    destruct (report_shape d Hk) as [Hw He].
    repeat split; try assumption.
    exists r, data, name, country. repeat split; assumption.
Qed.

(** ** Claims about [search_attractions] *)

(** The environment is written first, then one search goes out; its
    results are formatted, its exception is not caught. *)
Lemma search_attractions_eq (w : world) (location : string) (s : state) :
  search_attractions w location s =
    let key := TAVILY_API_KEY (globals s) in
    let s1 := {| globals := globals s;
                 environ := <["TAVILY_API_KEY" := key]> (environ s);
                 files := files s;
                 travel_results := travel_results s;
                 trace := trace s |} in
    let s2 := logged (SearchCall (search_query location)) s1 in
    match tavily_search w (Some key) (search_query location) with
    | Returned results => (Returned (format_results w results), s2)
    | Raised e => (Raised e, s2)
    end.
Proof.
  unfold search_attractions, search_invoke, read_global, set_environ, log, bind.
  cbv beta iota zeta. unfold logged. cbn [environ globals trace travel_results].
  rewrite lookup_insert_eq.
  destruct (tavily_search w _ _); reflexivity.
Qed.

Lemma entries_lookup (w : world) (results : list dict) (i : nat) (result : dict) :
  results !! i = Some result ->
  entries w results !! i = Some (entry_text w (S i) result).
Proof.
  intros H. unfold entries, entries_from.
  rewrite list_lookup_fmap, (enumerate_lookup _ 1 _ _ H). reflexivity.
Qed.

(** C4.  When the search returns a list of results, the text handed back is
    the header followed by one entry per result, and the entry of a result
    without ["title"] carries ["No title"], the entry of a result without
    ["content"] carries ["No description"]; a field that is present is
    printed as it is. *)
Theorem search_attractions_placeholders (w : world) (location : string) (s : state)
    (results : list dict) :
  tavily_search w (Some (TAVILY_API_KEY (globals s))) (search_query location)
    = Returned results ->
  fst (search_attractions w location s)
    = Returned (attractions_header +:+ concat_all (entries w results)) /\
  length (entries w results) = length results /\
  forall i result, results !! i = Some result ->
    exists title snippet,
      entries w results !! i = Some (render_entry (S i) title snippet) /\
      (dict_get result "title" = None -> title = "No title") /\
      (dict_get result "content" = None -> snippet = "No description") /\
      (forall v, dict_get result "title" = Some v -> title = format_value w v) /\
      (forall v, dict_get result "content" = Some v -> snippet = format_value w v).
Proof.
  intros Hsearch. split; [|split].
  - rewrite search_attractions_eq. cbv zeta. rewrite Hsearch. cbn [fst].
    now rewrite format_results_entries.
  - unfold entries, entries_from. now rewrite length_map, length_enumerate.
  - intros i result Hi.
    exists (format_value w (get_default result "title" (JStr "No title"))),
           (format_value w (get_default result "content" (JStr "No description"))).
    split; [exact (entries_lookup w results i result Hi)|].
    unfold get_default.
    repeat split.
    + intros ->. reflexivity.
    + intros ->. reflexivity.
    + intros v ->. reflexivity.
    + intros v ->. reflexivity.
Qed.

Lemma search_attractions_placeholders_witness :
  tavily_search world_tourist (Some (TAVILY_API_KEY (globals fresh_state)))
    (search_query "Paris") = Returned [louvre; untitled; bare] /\
  fst (search_attractions world_tourist "Paris" fresh_state)
    = Returned (attractions_header
                +:+ concat_all (entries world_tourist [louvre; untitled; bare])) /\
  length (entries world_tourist [louvre; untitled; bare]) = 3.
Proof.
  split; [reflexivity|].
  destruct (search_attractions_placeholders world_tourist "Paris" fresh_state
              [louvre; untitled; bare] eq_refl) as (Hout & Hlen & _).
  split; [exact Hout | exact Hlen].
Defined.



(** C3.  With a search client that raises (here: the provider rejects the
    key), [search_attractions] raises the same exception to its caller; it
    has no handler of its own. *)
Theorem search_attractions_raises :
  fst (search_attractions world_search_down "Paris" fresh_state)
    = Raised (ExternalError "401 Client Error: Unauthorized").
Proof. rewrite search_attractions_eq. reflexivity. Qed.

Lemma search_attractions_propagates (w : world) (location : string) (s : state)
    (e : exn) :
  tavily_search w (Some (TAVILY_API_KEY (globals s))) (search_query location)
    = Raised e ->
  fst (search_attractions w location s) = Raised e.
Proof. intros H. rewrite search_attractions_eq. cbv zeta. now rewrite H. Qed.

(** ** Claims about the task description *)

Lemma concat_comma_joined (interests : list string) :
  String.concat ", " interests = comma_joined interests.
Proof.
  induction interests as [|x rest IH]; [reflexivity|].
  destruct rest as [|y rest]; [reflexivity|].
  cbn [String.concat comma_joined]. cbn [String.concat comma_joined] in IH.
  now rewrite IH.
Qed.

(** C7.  The dict handed to the agent executor holds, under ["input"], the
    fixed sentence with the destination and then the interests in it: the
    interests in their order separated by [", "], or
    ["general sightseeing"] when there are none. *)
Theorem task_description_embeds (destination : string) (interests : list string)
    (executor : agent_executor) :
  run_travel_assistant destination interests executor =
    (let! response :=
       executor
         [("input",
           JStr ("I'm planning to visit " +:+ destination
                 +:+ ". I'm interested in "
                 +:+ match interests with
                     | [] => "general sightseeing"
                     | _ :: _ => comma_joined interests
                     end
                 +:+ ". What's the weather like and what are some attractions I should see?"))]
     in lift (subscript (JObj response) "output")).
Proof.
  unfold run_travel_assistant, task_input, interests_str.
  destruct interests as [|x rest]; [reflexivity|].
  now rewrite concat_comma_joined.
Qed.

(** ** Frames and state-insensitivity *)

Lemma frame_refl (s : state) : frame s s.
Proof. split; [reflexivity | split; [reflexivity | now left]]. Qed.

Lemma frame_trans (s1 s2 s3 : state) : frame s1 s2 -> frame s2 s3 -> frame s1 s3.
Proof.
  intros (Hg12 & Hf12 & He12) (Hg23 & Hf23 & He23).
  split; [congruence|]. split; [congruence|].
  rewrite Hg12 in He23.
  destruct He12 as [E12 | E12], He23 as [E23 | E23];
    rewrite E23, E12; auto.
  right. apply insert_insert_eq.
Qed.

Lemma frame_logged (e : event) (s : state) : frame s (logged e s).
Proof. split; [reflexivity | split; [reflexivity | now left]]. Qed.

Lemma wb_ret {A} (a : A) : well_behaved (ret a).
Proof. split; [intros s; apply frame_refl | reflexivity]. Qed.

Lemma wb_raise {A} (e : exn) : well_behaved (@raise A e).
Proof. split; [intros s; apply frame_refl | reflexivity]. Qed.

Lemma wb_lift {A} (o : outcome A) : well_behaved (lift o).
Proof. split; [intros s; apply frame_refl | reflexivity]. Qed.

Lemma wb_read_global (f : credentials -> string) : well_behaved (read_global f).
Proof.
  split; [intros s; apply frame_refl|].
  intros s1 s2 H. unfold read_global. cbn. now rewrite H.
Qed.

Lemma wb_log (e : event) : well_behaved (log e).
Proof. split; [intros s; apply frame_logged | reflexivity]. Qed.

Lemma wb_bind {A B} (m : M A) (k : A -> M B) :
  well_behaved m -> (forall a, well_behaved (k a)) -> well_behaved (bind m k).
Proof.
  intros [Hf Hi] Hk. split.
  - intros s. unfold bind. specialize (Hf s).
    destruct (m s) as [[a|e] s']; cbn [snd] in *; [|exact Hf].
    eapply frame_trans; [exact Hf | apply (Hk a)].
  - intros s1 s2 Hg. unfold bind.
    pose proof (Hi s1 s2 Hg) as Ho.
    pose proof (Hf s1) as [Hg1 _]. pose proof (Hf s2) as [Hg2 _].
    destruct (m s1) as [o1 s1'], (m s2) as [o2 s2']; cbn [fst snd] in *.
    subst o2. destruct o1 as [a|e]; [|reflexivity].
    apply (Hk a). congruence.
Qed.

Lemma wb_try_except {A} (body : M A) (handler : exn -> M A) :
  well_behaved body -> (forall e, well_behaved (handler e)) ->
  well_behaved (try_except body handler).
Proof.
  intros [Hf Hi] Hh. split.
  - intros s. unfold try_except. specialize (Hf s).
    destruct (body s) as [[a|e] s']; cbn [snd] in *; [exact Hf|].
    eapply frame_trans; [exact Hf | apply (Hh e)].
  - intros s1 s2 Hg. unfold try_except.
    pose proof (Hi s1 s2 Hg) as Ho.
    pose proof (Hf s1) as [Hg1 _]. pose proof (Hf s2) as [Hg2 _].
    destruct (body s1) as [o1 s1'], (body s2) as [o2 s2']; cbn [fst snd] in *.
    subst o2. destruct o1 as [a|e]; [reflexivity|].
    apply (Hh e). congruence.
Qed.

Create HintDb wb.
#[local] Hint Resolve wb_ret wb_raise wb_lift wb_read_global wb_log : wb.

Ltac wb_steps :=
  repeat match goal with
    | |- well_behaved (bind _ _) => apply wb_bind; [ | intros ? ]
    | |- well_behaved (try_except _ _) => apply wb_try_except; [ | intros ? ]
    | |- well_behaved _ => solve [ auto with wb ]
    end.

Lemma wb_weather_info (w : world) (data : json) : well_behaved (weather_info w data).
Proof. unfold weather_info, sub2. wb_steps. Qed.

Lemma wb_raise_for_status (r : response) : well_behaved (raise_for_status r).
Proof.
  unfold raise_for_status.
  repeat match goal with |- context [if ?b then _ else _] => destruct b end;
    auto with wb.
Qed.

Lemma wb_get_weather (w : world) (location : string) :
  well_behaved (get_weather w location).
Proof.
  unfold get_weather, requests_get, response_json. wb_steps.
  - destruct (weather_api w _); auto with wb.
  - apply wb_raise_for_status.
  - destruct (body _); auto with wb.
  - apply wb_weather_info.
Qed.

Lemma wb_search_attractions (w : world) (location : string) :
  well_behaved (search_attractions w location).
Proof.
  split.
  - intros s. rewrite search_attractions_eq. cbv zeta.
    assert (frame s (logged (SearchCall (search_query location))
                       {| globals := globals s;
                          environ := <["TAVILY_API_KEY" := TAVILY_API_KEY (globals s)]>
                                       (environ s);
                          files := files s;
                          travel_results := travel_results s;
                          trace := trace s |})) as Hf
      by (split; [reflexivity | split; [reflexivity | now right]]).
    destruct (tavily_search w _ _); exact Hf.
  - intros s1 s2 Hg. rewrite !search_attractions_eq. cbv zeta. rewrite Hg.
    destruct (tavily_search w _ _); reflexivity.
Qed.

Lemma wb_run_tool (w : world) (t : tool) (arg : string) :
  well_behaved (run_tool w t arg).
Proof.
  destruct t; unfold run_tool; wb_steps.
  - apply wb_get_weather.
  - apply wb_search_attractions.
Qed.

Lemma wb_agent_loop (w : world) (key : string) (steps : nat) (input : string)
    (scratchpad : list observation) :
  well_behaved (agent_loop w key steps input scratchpad).
Proof.
  revert scratchpad. induction steps as [|steps IH]; intros scratchpad.
  - apply wb_raise.
  - cbn [agent_loop]. wb_steps.
    match goal with |- well_behaved (match ?d with _ => _ end) => destruct d end.
    + wb_steps. apply wb_run_tool.
    + apply wb_ret.
Qed.

(** ** compose *)

Lemma compose_eq (w : world) (destination : string) (interests : list string)
    (s : state) :
  compose w destination interests s =
    match agent_loop w (GOOGLE_API_KEY (globals s)) (step_cap w)
            (task_input destination interests) [] s with
    | (Returned text, s') => (Returned (JStr text), s')
    | (Raised e, s') => (Raised e, s')
    end.
Proof.
  unfold compose, create_travel_assistant, agent_executor_invoke,
    run_travel_assistant, read_global, bind, lift, ret.
  cbn [subscript dict_get]. change (String.eqb "input" "input") with true.
  cbv beta iota. cbn [format_value].
  destruct (agent_loop w _ _ _ _ s) as [[text|e] s']; reflexivity.
Qed.

Lemma wb_compose (w : world) (destination : string) (interests : list string) :
  well_behaved (compose w destination interests).
Proof.
  split.
  - intros s. rewrite compose_eq.
    pose proof (proj1 (wb_agent_loop w (GOOGLE_API_KEY (globals s)) (step_cap w)
                         (task_input destination interests) []) s) as Hf.
    destruct (agent_loop w _ _ _ _ s) as [[text|e] s']; exact Hf.
  - intros s1 s2 Hg. rewrite !compose_eq. rewrite <- Hg.
    pose proof (proj2 (wb_agent_loop w (GOOGLE_API_KEY (globals s1)) (step_cap w)
                         (task_input destination interests) []) s1 s2 Hg) as Ho.
    destruct (agent_loop w _ _ _ _ s1) as [o1 s1'],
             (agent_loop w _ _ _ _ s2) as [o2 s2']; cbn [fst] in Ho.
    subst o2. destruct o1; reflexivity.
Qed.













(** ** The empty destination *)

(** C6 (as stated, refuted).  Called with an empty destination,
    [run_travel_assistant] goes ahead: it hands the executor the sentence
    with nothing in the place of the destination and returns its answer;
    with the real tools behind it the model is asked and the weather is
    fetched. *)
Lemma run_travel_assistant_accepts_empty_destination :
  run_travel_assistant "" [] recording_executor fresh_state
    = (Returned (JStr "A fixed answer."),
       logged (ModelCall "I'm planning to visit . I'm interested in general sightseeing. What's the weather like and what are some attractions I should see?" [])
         fresh_state) /\
  fst (compose world_up "" [] fresh_state) = Returned (JStr "Weather found.") /\
  trace (snd (compose world_up "" [] fresh_state))
    = [ ModelCall (task_input "" []) [];
        HttpGet "http://api.weatherapi.com/v1/current.json?key=w-key&q=Paris&aqi=no";
        ModelCall (task_input "" [])
          [(GetWeather, "Paris",
            JObj [ ("location", JStr "Paris, France");
                   ("temperature_c", JInt 18); ("temperature_f", JFloat "64.4");
                   ("condition", JStr "Sunny"); ("humidity", JInt 40);
                   ("wind_kph", JFloat "9.0"); ("feels_like_c", JInt 18);
                   ("feels_like_f", JFloat "64.4");
                   ("last_updated", JStr "2024-05-01 12:00") ])] ].
Proof.
  split; [reflexivity|]. split; reflexivity.
Qed.

(** C6 (amended).  The button handler is where an empty destination stops:
    with it the handler does nothing at all, so [compose] is not called and
    no weather, search or model request goes out. *)
Theorem handle_submit_rejects_empty_destination (w : world) (submit_button : bool)
    (interests : list string) (s : state) :
  handle_submit w submit_button "" interests s = (Returned tt, s).
Proof. unfold handle_submit. destruct submit_button; reflexivity. Qed.

(** ** Credentials and the environment *)



(** ** Two calls in a row *)

(** C9.  A second [compose] with the same destination and interests, run in
    the state the first one left behind, has the same outcome as the first:
    the same answer text, or the same exception. *)
Theorem compose_twice_same_answer (w : world) (destination : string)
    (interests : list string) (s : state) :
  fst (compose w destination interests (snd (compose w destination interests s)))
  = fst (compose w destination interests s).
Proof.
  destruct (wb_compose w destination interests) as [Hframe Hsame].
  apply Hsame. apply (Hframe s).
Qed.

(** * Further properties of the code *)

(** ** get_weather: requests, values, errors *)

(** X1.  One call of [get_weather] sends exactly one GET, to the URL made of
    the weather key and the location, whether it succeeds or not, and does
    nothing else to the process state. *)
Theorem get_weather_sends_one_request (w : world) (location : string) (s : state) :
  snd (get_weather w location s)
    = logged (HttpGet ("http://api.weatherapi.com/v1/current.json?key="
                       +:+ WEATHER_API_KEY (globals s) +:+ "&q=" +:+ location
                       +:+ "&aqi=no")) s.
Proof.
  destruct (get_weather_cases w location s)
    as [(_ & e & ->) | (_ & r & data & d & name & country & _ & _ & -> & _)];
    reflexivity.
Qed.

Ltac read_value cases :=
  let x := fresh "x" in
  let e := fresh "e" in
  let Hp := fresh "Hp" in
  let Hs := fresh "Hs" in
  destruct cases as [(x & Hp & Hs) | (Hp & e & Hs)];
  unfold bind at 1; rewrite Hs; clear Hs; cbv beta iota;
  [ | exact I ].

(** Every entry of the record is the provider's value, untouched. *)
Lemma weather_info_values (w : world) (data : json) (s : state) :
  match weather_info w data s with
  | (Returned d, _) =>
      dict_get d "temperature_c" = path_get data ["current"; "temp_c"] /\
      dict_get d "temperature_f" = path_get data ["current"; "temp_f"] /\
      dict_get d "condition" = path_get data ["current"; "condition"; "text"] /\
      dict_get d "humidity" = path_get data ["current"; "humidity"] /\
      dict_get d "wind_kph" = path_get data ["current"; "wind_kph"] /\
      dict_get d "feels_like_c" = path_get data ["current"; "feelslike_c"] /\
      dict_get d "feels_like_f" = path_get data ["current"; "feelslike_f"] /\
      dict_get d "last_updated" = path_get data ["current"; "last_updated"]
  | (Raised _, _) => True
  end.
Proof.
  pose proof (path_get_condition_text data) as Hct.
  unfold weather_info.
  read_value (sub2_cases data "location" "name" s).
  read_value (sub2_cases data "location" "country" s).
  read_value (sub2_cases data "current" "temp_c" s).
  read_value (sub2_cases data "current" "temp_f" s).
  destruct (sub2_cases data "current" "condition" s)
    as [(c & Hpc & Hsc) | (Hpc & e & Hsc)];
    unfold bind at 1; rewrite Hsc; cbv beta iota; rewrite Hpc in Hct;
    [ | exact I ].
  unfold bind at 1, lift at 1.
  destruct (subscript_cases c "text") as [(t & Hpt & Hst) | (Hpt & e & Hst)];
    rewrite Hst; cbv beta iota; rewrite Hpt in Hct; [ | exact I ].
  read_value (sub2_cases data "current" "humidity" s).
  read_value (sub2_cases data "current" "wind_kph" s).
  read_value (sub2_cases data "current" "feelslike_c" s).
  read_value (sub2_cases data "current" "feelslike_f" s).
  read_value (sub2_cases data "current" "last_updated" s).
  unfold ret. cbn [dict_get String.eqb Ascii.eqb Bool.eqb].
  repeat split; symmetry; assumption.
Qed.

(** X2.  When the provider answers with a good status and a body that has
    every expected field, [get_weather] returns the weather record, and each
    of its entries other than the location label is the provider's own
    value, passed through without conversion. *)
Theorem get_weather_passes_values_through (w : world) (location : string)
    (s : state) :
  provider_fails
    (weather_api w (weather_url (WEATHER_API_KEY (globals s)) location)) = false ->
  exists r data d,
    weather_api w (weather_url (WEATHER_API_KEY (globals s)) location) = Responded r /\
    body r = inr data /\
    fst (get_weather w location s) = Returned d /\
    is_weather_report d = true /\
    dict_get d "temperature_c" = path_get data ["current"; "temp_c"] /\
    dict_get d "temperature_f" = path_get data ["current"; "temp_f"] /\
    dict_get d "condition" = path_get data ["current"; "condition"; "text"] /\
    dict_get d "humidity" = path_get data ["current"; "humidity"] /\
    dict_get d "wind_kph" = path_get data ["current"; "wind_kph"] /\
    dict_get d "feels_like_c" = path_get data ["current"; "feelslike_c"] /\
    dict_get d "feels_like_f" = path_get data ["current"; "feelslike_f"] /\
    dict_get d "last_updated" = path_get data ["current"; "last_updated"].
Proof.
  intros Hok.
  pose proof (get_weather_eq w location s) as Heq. cbv zeta in Heq.
  destruct (weather_api w _) as [msg|r] eqn:Hapi; [discriminate Hok|].
  cbn [provider_fails] in Hok. apply orb_false_iff in Hok as [Hstatus Hbody].
  match type of Heq with context [raise_for_status r ?s1] =>
    pose proof (raise_for_status_cases r s1) as Hst;
    pose proof (weather_info_cases w) as Hcases;
    pose proof (weather_info_values w) as Hvalues;
    set (s1' := s1) in *
  end.
  rewrite Hstatus in Hst. rewrite Hst in Heq.
  destruct (body r) as [msg|data] eqn:Hb; [discriminate Hbody|].
  apply negb_false_iff in Hbody.
  specialize (Hcases data s1'). specialize (Hvalues data s1').
  destruct (weather_info w data s1') as [[d|e] s2].
  - exists r, data, d. rewrite Heq.
    destruct Hcases as (_ & _ & Hk & _).
    split; [reflexivity|]. split; [exact Hb|]. split; [reflexivity|].
    split; [now apply bool_decide_eq_true | exact Hvalues].
  - destruct Hcases as [_ Hmissing]. congruence.
Qed.

Lemma get_weather_passes_values_through_witness :
  provider_fails
    (weather_api world_up
       (weather_url (WEATHER_API_KEY (globals fresh_state)) "Paris")) = false /\
  exists r data d,
    weather_api world_up
      (weather_url (WEATHER_API_KEY (globals fresh_state)) "Paris") = Responded r /\
    body r = inr data /\
    fst (get_weather world_up "Paris" fresh_state) = Returned d /\
    is_weather_report d = true /\
    dict_get d "temperature_c" = path_get data ["current"; "temp_c"].
Proof.
  split; [reflexivity|].
  destruct (get_weather_passes_values_through world_up "Paris" fresh_state eq_refl)
    as (r & data & d & Hr & Hb & Hd & Hw & Ht & _).
  exists r, data, d. repeat split; assumption.
Defined.

(** X3.  An HTTP error status wins over the body: with a status from 400 to
    599 the body is never read, and the result is the error record carrying
    the message of the [HTTPError] that [raise_for_status] raised, even when
    the body is a complete weather answer. *)
Theorem get_weather_error_status_wins (w : world) (location : string) (s : state)
    (r : response) :
  weather_api w (weather_url (WEATHER_API_KEY (globals s)) location) = Responded r ->
  (400 <= status_code r < 600)%nat ->
  exists msg,
    fst (raise_for_status r s) = Raised (HTTPError msg) /\
    fst (get_weather w location s)
      = Returned [("error", JStr ("Failed to get weather information: " +:+ msg))].
Proof.
  intros Hapi Hrange.
  pose proof (get_weather_eq w location s) as Heq. cbv zeta in Heq.
  rewrite Hapi in Heq.
  assert (Hstatus : is_error_status r = true).
  { unfold is_error_status. apply andb_true_iff. split.
    - apply Nat.leb_le. lia.
    - apply Nat.ltb_lt. lia. }
  match type of Heq with context [raise_for_status r ?s1] =>
    pose proof (raise_for_status_cases r s1) as Hst
  end.
  rewrite Hstatus in Hst. destruct Hst as [msg Hst]. rewrite Hst in Heq.
  exists msg. split; [|now rewrite Heq].
  revert Hst. unfold raise_for_status.
  repeat match goal with |- context [if ?b then _ else _] => destruct b end;
    unfold raise, ret; intros [= <-]; reflexivity.
Qed.

Lemma get_weather_error_status_wins_witness :
  weather_api world_404
    (weather_url (WEATHER_API_KEY (globals fresh_state)) "Paris")
    = Responded {| status_code := 404; reason := "Not Found";
                   resp_url := weather_url "w-key" "Paris";
                   body := inr paris_body |} /\
  has_expected_fields paris_body = true /\
  exists msg,
    fst (get_weather world_404 "Paris" fresh_state)
      = Returned [("error", JStr ("Failed to get weather information: " +:+ msg))].
Proof.
  split; [reflexivity|]. split; [reflexivity|].
  destruct (get_weather_error_status_wins world_404 "Paris" fresh_state _ eq_refl)
    as (msg & _ & Hmsg).
  - cbn. lia.
  - exists msg. exact Hmsg.
Defined.

(** X4.  Under a status that is no HTTP error, a JSON object without the
    key ["location"] is reported by that key: the message is the fixed
    prefix followed by ['location']. *)
Theorem get_weather_names_missing_location (w : world) (location : string)
    (s : state) (r : response) (fields : list (string * json)) :
  weather_api w (weather_url (WEATHER_API_KEY (globals s)) location) = Responded r ->
  is_error_status r = false ->
  body r = inr (JObj fields) ->
  dict_get fields "location" = None ->
  fst (get_weather w location s)
    = Returned [("error", JStr "Failed to get weather information: 'location'")].
Proof.
  intros Hapi Hstatus Hbody Hmissing.
  rewrite get_weather_eq. cbv zeta. rewrite Hapi.
  match goal with |- context [raise_for_status r ?s1] =>
    pose proof (raise_for_status_cases r s1) as Hst
  end.
  rewrite Hstatus in Hst. rewrite Hst, Hbody.
  unfold weather_info. unfold bind at 1. unfold sub2 at 1. unfold bind at 1.
  unfold lift at 1. cbn [subscript]. rewrite Hmissing. reflexivity.
Qed.

Lemma get_weather_names_missing_location_witness :
  fst (get_weather world_no_location "Paris" fresh_state)
    = Returned [("error", JStr "Failed to get weather information: 'location'")].
Proof.
  apply (get_weather_names_missing_location world_no_location "Paris" fresh_state
           {| status_code := 200; reason := "OK";
              resp_url := weather_url "w-key" "Paris";
              body := inr (JObj [("current", JObj [("temp_c", JInt 18)])]) |}
           [("current", JObj [("temp_c", JInt 18)])]);
    reflexivity.
Defined.

(** ** search_attractions: the key it uses, the request it sends *)


(** X7.  The two tools do not disturb each other: the weather answer is the
    same before and after a search, and the search answer is the same
    before and after a weather lookup. *)
Theorem tools_do_not_interfere (w : world) (place spot : string) (s : state) :
  fst (get_weather w place (snd (search_attractions w spot s)))
    = fst (get_weather w place s) /\
  fst (search_attractions w spot (snd (get_weather w place s)))
    = fst (search_attractions w spot s).
Proof.
  split.
  - apply (proj2 (wb_get_weather w place)).
    apply (proj1 (wb_search_attractions w spot) s).
  - apply (proj2 (wb_search_attractions w spot)).
    apply (proj1 (wb_get_weather w place) s).
Qed.

Lemma length_append (a b : string) :
  String.length (a +:+ b) = String.length a + String.length b.
Proof.
  induction a as [|x a IH]; [reflexivity|].
  change (S (String.length (a +:+ b)) = S (String.length a + String.length b)).
  now rewrite IH.
Qed.

Lemma entry_text_not_empty (w : world) (i : nat) (result : dict) :
  0 < String.length (entry_text w i result).
Proof.
  unfold entry_text. rewrite !length_append.
  change (String.length ". ") with 2. lia.
Qed.

(** X8.  The text always opens with the header, and it is the header alone
    exactly when the search returned no result. *)
Theorem format_results_header_alone (w : world) (results : list dict) :
  String.prefix attractions_header (format_results w results) = true /\
  (format_results w results = attractions_header <-> results = []).
Proof.
  rewrite format_results_entries. split; [apply prefix_app|].
  split.
  - intros H. destruct results as [|r rest]; [reflexivity|exfalso].
    apply (f_equal String.length) in H. rewrite length_append in H.
    unfold entries, entries_from in H.
    cbn [enumerate map concat_all fold_right fst snd] in H.
    rewrite length_append in H.
    pose proof (entry_text_not_empty w 1 r). lia.
  - intros ->. cbn. apply append_nil_r.
Qed.

(** ** The button handler and the destination widgets *)

Lemma truthy_true (s : string) : truthy s = true <-> s <> "".
Proof.
  unfold truthy. rewrite negb_true_iff. apply String.eqb_neq.
Qed.

Lemma truthy_false (s : string) : truthy s = false <-> s = "".
Proof.
  unfold truthy. rewrite negb_false_iff. apply String.eqb_eq.
Qed.

(** The handler once the button is pressed with a destination. *)
Lemma handle_submit_eq (w : world) (destination : string) (interests : list string)
    (s : state) :
  destination <> "" ->
  handle_submit w true destination interests s =
    if keys_provided (globals s) then
      match compose w destination interests s with
      | (Returned result, s') => (Returned tt, stored result s')
      | (Raised e, s') =>
          (Returned tt,
           logged (StInfo "Please check your API keys and try again.")
             (logged (StError ("An error occurred: " +:+ str_exn e)) s'))
      end
    else
      (Returned tt,
       logged (StError "⚠️ Please provide all required API keys in the Settings tab.") s).
Proof.
  intros Hd. apply truthy_true in Hd.
  unfold handle_submit. rewrite Hd. cbn [andb].
  unfold read_global. unfold bind at 1. cbv beta iota.
  unfold bind at 1. cbv beta iota. unfold bind at 1. cbv beta iota.
  fold (keys_provided (globals s)).
  destruct (keys_provided (globals s)); cbn [negb]; [|reflexivity].
  unfold try_except. unfold bind at 1.
  destruct (compose w destination interests s) as [[result|e] s']; reflexivity.
Qed.

(** X9.  With the button pressed and a destination given, a missing
    credential (any of the three) stops the handler: it shows the one error
    message, sends no request and stores nothing. *)
Theorem handle_submit_without_keys (w : world) (destination : string)
    (interests : list string) (s : state) :
  destination <> "" ->
  GOOGLE_API_KEY (globals s) = "" \/ TAVILY_API_KEY (globals s) = ""
    \/ WEATHER_API_KEY (globals s) = "" ->
  handle_submit w true destination interests s
    = (Returned tt,
       logged (StError "⚠️ Please provide all required API keys in the Settings tab.") s).
Proof.
  intros Hd Hkeys. rewrite (handle_submit_eq w destination interests s Hd).
  assert (keys_provided (globals s) = false) as ->; [|reflexivity].
  unfold keys_provided.
  destruct Hkeys as [H | [H | H]]; apply truthy_false in H; rewrite H;
    rewrite ?andb_false_r; reflexivity.
Qed.

Lemma handle_submit_without_keys_witness :
  handle_submit world_up true "Paris" ["Museums"] keyless_state
    = (Returned tt,
       logged (StError "⚠️ Please provide all required API keys in the Settings tab.")
         keyless_state).
Proof.
  apply (handle_submit_without_keys world_up "Paris" ["Museums"] keyless_state).
  - discriminate.
  - right. right. reflexivity.
Defined.

(** X10.  An exception of the assistant does not leave the handler: it is
    shown as ["An error occurred: " + str(e)], followed by the hint about
    the API keys, and no result is stored. *)
Theorem handle_submit_reports_failure (w : world) (destination : string)
    (interests : list string) (s s' : state) (e : exn) :
  destination <> "" ->
  keys_provided (globals s) = true ->
  compose w destination interests s = (Raised e, s') ->
  handle_submit w true destination interests s
    = (Returned tt,
       logged (StInfo "Please check your API keys and try again.")
         (logged (StError ("An error occurred: " +:+ str_exn e)) s')).
Proof.
  intros Hd Hkeys Hcompose.
  rewrite (handle_submit_eq w destination interests s Hd), Hkeys, Hcompose.
  reflexivity.
Qed.

Lemma handle_submit_reports_failure_witness :
  compose world_search_down "Paris" [] fresh_state
    = (Raised (ExternalError "401 Client Error: Unauthorized"),
       snd (compose world_search_down "Paris" [] fresh_state)) /\
  fst (handle_submit world_search_down true "Paris" [] fresh_state) = Returned tt /\
  travel_results (snd (handle_submit world_search_down true "Paris" [] fresh_state))
    = None.
Proof.
  assert (Hc : compose world_search_down "Paris" [] fresh_state
               = (Raised (ExternalError "401 Client Error: Unauthorized"),
                  snd (compose world_search_down "Paris" [] fresh_state)))
    by reflexivity.
  split; [exact Hc|].
  assert (Hd : "Paris" <> "") by discriminate.
  rewrite (handle_submit_reports_failure world_search_down "Paris" [] fresh_state
             _ _ Hd eq_refl Hc).
  split; reflexivity.
Defined.

(** X12.  The destination is the selected suggestion when there is one, and
    the typed text otherwise; it is empty exactly when nothing is selected
    and nothing is typed. *)
Theorem choose_destination_cases (selected custom_destination : string) :
  (selected <> "" -> choose_destination selected custom_destination = selected) /\
  (selected = "" -> choose_destination selected custom_destination = custom_destination) /\
  (choose_destination selected custom_destination = ""
   <-> selected = "" /\ custom_destination = "").
Proof.
  unfold choose_destination.
  destruct (truthy selected) eqn:Hs, (truthy custom_destination) eqn:Hc;
    try apply truthy_true in Hs; try apply truthy_false in Hs;
    try apply truthy_true in Hc; try apply truthy_false in Hc;
    repeat split; intros; subst; try congruence; tauto.
Qed.

Lemma choose_destination_cases_witness :
  choose_destination "Rome, Italy" "Oslo" = "Rome, Italy" /\
  choose_destination "" "Oslo" = "Oslo".
Proof.
  destruct (choose_destination_cases "Rome, Italy" "Oslo") as (H1 & _ & _).
  destruct (choose_destination_cases "" "Oslo") as (_ & H2 & _).
  split; [apply H1; discriminate | apply H2; reflexivity].
Defined.

(** ** The task text *)

Lemma comma_joined_contains (interests : list string) (interest : string) :
  In interest interests ->
  exists pre post, comma_joined interests = pre +:+ interest +:+ post.
Proof.
  induction interests as [|x rest IH]; intros Hin; [destruct Hin|].
  destruct rest as [|y rest].
  - destruct Hin as [-> | []]. exists "", "". cbn [comma_joined].
    now rewrite append_nil_r.
  - destruct Hin as [-> | Hin].
    + exists "", (", " +:+ comma_joined (y :: rest)). reflexivity.
    + destruct (IH Hin) as (pre & post & Heq).
      exists (x +:+ ", " +:+ pre), post.
      change (comma_joined (x :: y :: rest))
        with (x +:+ ", " +:+ comma_joined (y :: rest)).
      rewrite Heq, !append_assoc. reflexivity.
Qed.

(** X13.  Every interest the user picked reaches the model: each one occurs,
    as it is, in the text that [run_travel_assistant] hands to the
    executor. *)
Theorem task_input_mentions_each_interest (destination : string)
    (interests : list string) (interest : string) :
  In interest interests ->
  exists pre post, task_input destination interests = pre +:+ interest +:+ post.
Proof.
  intros Hin.
  destruct interests as [|x rest]; [destruct Hin|].
  destruct (comma_joined_contains (x :: rest) interest Hin) as (pre & post & Heq).
  exists ("I'm planning to visit " +:+ destination +:+ ". I'm interested in " +:+ pre),
         (post +:+ ". What's the weather like and what are some attractions I should see?").
  unfold task_input, interests_str.
  rewrite concat_comma_joined, Heq, !append_assoc. reflexivity.
Qed.

Lemma task_input_mentions_each_interest_witness :
  exists pre post,
    task_input "Rome, Italy" ["Museums"; "Nature"] = pre +:+ "Nature" +:+ post.
Proof.
  apply (task_input_mentions_each_interest "Rome, Italy" ["Museums"; "Nature"] "Nature").
  right. left. reflexivity.
Defined.
